(** * boomerang.py: argument validation, filter graph and encoder choice

    A shallow embedding of [create_boomerang] (src/boomerang.py).

    - Python [float] arguments are IEEE 754 binary64 values, here Rocq's
      primitive [float]; [int] is [Z]; [str] is [string].
    - The ffmpeg-python calls only build a description of a filter graph.
      That description is the inductive type [stream]; nothing is decoded
      or encoded here.
    - External effects are recorded as a trace of [event]s: the run of
      [nvidia-smi] and the final [output(...).run(...)].  The [print]
      calls and the creation of the output directory do not influence
      control flow or the graph and are left out.
    - Exceptions are explicit: a computation yields [Ok v] or [Raise e]. *)

From Stdlib Require Import Floats ZArith Ascii String List Bool Lia.
Import ListNotations.

Set Warnings "-inexact-float,-register-all".

Open Scope string_scope.
Open Scope list_scope.

(** ** Exceptions, results and the effect trace *)

Inductive exn : Type :=
| ValueError (msg : string)
| ZeroDivisionError
| KeyError (key : string)
| FileNotFoundError
| TimeoutExpired
| FfmpegError
| OtherError (cls : string).

Inductive result (A : Type) : Type :=
| Ok (a : A)
| Raise (e : exn).

Arguments Ok {A} a.
Arguments Raise {A} e.

(** Values that appear as filter arguments and as output options.
    [AFmt x suffix] stands for the f-string [f'{x}suffix']. *)
Inductive arg : Type :=
| ANone
| AStr (s : string)
| AInt (n : Z)
| AFloat (x : float)
| AFmt (x : float) (suffix : string).

(** A Python [dict] with string keys, in insertion order. *)
Definition dict : Type := list (string * arg).

Fixpoint dict_get (d : dict) (k : string) : option arg :=
  match d with
  | [] => None
  | (k', v) :: d' => if String.eqb k' k then Some v else dict_get d' k
  end.

(** [d[k] = v]: replaces the value of an existing key, else appends. *)
Fixpoint dict_set (d : dict) (k : string) (v : arg) : dict :=
  match d with
  | [] => [(k, v)]
  | (k', v') :: d' =>
      if String.eqb k' k then (k', v) :: d' else (k', v') :: dict_set d' k v
  end.

(** The filter graph built through ffmpeg-python.
    - [Input f kw]        is [ffmpeg.input(f, **kw)];
    - [Select s "v"]      is [s.video], [Select s "a"] is [s.audio];
    - [Filter ins n a kw] is [ffmpeg.filter(ins, n, *a, **kw)]
                          (and [s.filter(n, *a, **kw)] with [ins = [s]]);
    - [Concat ins kw]     is [ffmpeg.concat( *ins, **kw)]. *)
Inductive stream : Type :=
| Input (filename : string) (kwargs : dict)
| Select (s : stream) (selector : string)
| Filter (inputs : list stream) (name : string) (args : list arg) (kwargs : dict)
| Concat (inputs : list stream) (kwargs : dict).

(** Number of filter nodes called [name] in a graph. *)
Fixpoint count_filter (name : string) (s : stream) : nat :=
  match s with
  | Input _ _ => 0
  | Select s' _ => count_filter name s'
  | Filter ins n _ _ =>
      (if String.eqb n name then 1 else 0)
      + list_sum (map (count_filter name) ins)
  | Concat ins _ => list_sum (map (count_filter name) ins)
  end.

Inductive event : Type :=
| SubprocessRun (argv : list string) (timeout : Z)
| FfmpegRun (output_args : list stream) (output_file : string)
            (kwargs : dict) (overwrite_output quiet : bool).

(** A computation: the events it performed, and how it ended. *)
Definition M (A : Type) : Type := (list event * result A)%type.

Definition ret {A} (a : A) : M A := ([], Ok a).

Definition raise {A} (e : exn) : M A := ([], Raise e).

Definition bind {A B} (m : M A) (k : A -> M B) : M B :=
  match m with
  | (t, Ok a) => let (t', r) := k a in (t ++ t', r)
  | (t, Raise e) => (t, Raise e)
  end.

Notation "x <- m ;; k" := (bind m (fun x => k))
  (at level 61, m at next level, right associativity).

(** [try: body except handles: handler]. *)
Definition try_except {A} (body : M A) (handles : exn -> bool) (handler : M A)
  : M A :=
  match body with
  | (t, Ok a) => (t, Ok a)
  | (t, Raise e) =>
      if handles e then let (t', r) := handler in (t ++ t', r)
      else (t, Raise e)
  end.

(** ** Python operators on [float] *)

Module Py.

Definition lt (a b : float) : bool := (a <? b)%float.
Definition le (a b : float) : bool := (a <=? b)%float.
Definition gt (a b : float) : bool := (b <? a)%float.
Definition ge (a b : float) : bool := (b <=? a)%float.
Definition ne (a b : float) : bool := negb (a =? b)%float.

(** [a / b]: float division raises on a zero divisor of either sign. *)
Definition truediv (a b : float) : M float :=
  if (b =? 0)%float then raise ZeroDivisionError else ret (a / b)%float.

End Py.

(** ** The program *)

Definition HW_ACCEL_CODECS : dict :=
  [ ("nvidia", AStr "h264_nvenc");
    ("apple", AStr "h264_videotoolbox");
    ("intel", AStr "h264_qsv") ].

(** [HW_ACCEL_CODECS[key]], a string. *)
Definition hw_accel_codec (key : string) : M string :=
  match dict_get HW_ACCEL_CODECS key with
  | Some (AStr c) => ret c
  | _ => raise (KeyError key)
  end.

(** The code keeps no flag for hardware acceleration.  The table
    [HW_ACCEL_CODECS] lists the hardware encoders and [libx264] is the
    CPU encoder the code falls back to, so a codec counts as hardware
    accelerated when the table holds it. *)
Definition is_hardware_accelerated (codec : string) : bool :=
  existsb (fun kv => match snd kv with
                     | AStr c => String.eqb c codec
                     | _ => false
                     end) HW_ACCEL_CODECS.

(** The parameters of [create_boomerang]. *)
Record Args : Type := mkArgs {
  input_file : string;
  output_file : string;
  start_time : float;
  duration : float;
  speed : float;
  crf : Z;
  preset : string;
  fade_duration : float;
  include_audio : bool;
  use_gpu : bool;
  quiet : bool
}.

(** What the host answers: [platform.system()], the outcome of running
    [nvidia-smi] (its return code, or the exception [subprocess.run]
    raises), and the outcome of the ffmpeg run. *)
Record Env : Type := mkEnv {
  system : string;
  nvidia_smi : result Z;
  ffmpeg_run : result unit
}.

(** Lines 47-59. *)
Definition input_validation (a : Args) : M unit :=
  if Py.lt (start_time a) 0 then
    raise (ValueError "Start time cannot be negative")
  else if Py.le (duration a) 0 then
    raise (ValueError "Duration must be positive")
  else if Py.le (speed a) 0 then
    raise (ValueError "Speed must be positive")
  else if Py.lt (fade_duration a) 0 then
    raise (ValueError "Fade duration cannot be negative")
  else if Py.ge (fade_duration a) (duration a) then
    raise (ValueError "Fade duration must be less than total duration")
  else if (crf a <? 0)%Z || (crf a >? 51)%Z then
    raise (ValueError "CRF must be between 0 and 51")
  else ret tt.

(** Line 80. *)
Definition input_stream (a : Args) : stream :=
  Input (input_file a)
        [("ss", AFloat (start_time a)); ("t", AFloat (duration a))].

Definition video_stream (a : Args) : stream := Select (input_stream a) "v".

Definition forward_video (a : Args) : stream := video_stream a.

Definition reverse_video (a : Args) : stream :=
  Filter [video_stream a] "reverse" [] [].

(** Lines 91-100: [final_video] before the speed change. *)
Definition joined_video (a : Args) : stream :=
  if Py.gt (fade_duration a) 0 && Py.gt (duration a) (fade_duration a) then
    Filter [forward_video a; reverse_video a] "xfade" []
           [ ("transition", AStr "fade");
             ("duration", AFloat (fade_duration a));
             ("offset", AFloat (duration a - fade_duration a)%float) ]
  else
    Concat [forward_video a; reverse_video a] [].

(** Line 103. *)
Definition final_video (a : Args) : M stream :=
  factor <- Py.truediv 1 (speed a) ;;
  ret (Filter [joined_video a] "setpts" [AFmt factor "*PTS"] []).

(** Lines 107-114. *)
Definition kwargs (a : Args) : dict :=
  [ ("preset", AStr (preset a));
    ("crf", AInt (crf a));
    ("pix_fmt", AStr "yuv420p") ].

Definition audio_stream (a : Args) : stream := Select (input_stream a) "a".

Definition forward_audio (a : Args) : stream := audio_stream a.

Definition reverse_audio (a : Args) : stream :=
  Filter [audio_stream a] "areverse" [] [].

(** Line 122: [final_audio] before the tempo change. *)
Definition joined_audio (a : Args) : stream :=
  Concat [forward_audio a; reverse_audio a] [("v", AInt 0); ("a", AInt 1)].

(** Lines 128-131. *)
Definition final_audio (a : Args) : stream :=
  if Py.ne (speed a) 1 then
    let atempo_val := speed a in
    Filter [joined_audio a] "atempo" [AFloat atempo_val] []
  else joined_audio a.

(** Lines 117-139: the output streams and the options after the audio step. *)
Definition audio_processing (a : Args) (output_args : list stream) (kw : dict)
  : list stream * dict :=
  if include_audio a then (output_args ++ [final_audio a], kw)
  else (output_args, dict_set kw "an" ANone).

(** [subprocess.run(['nvidia-smi'], capture_output=True, text=True, timeout=5)],
    giving the return code. *)
Definition subprocess_run (env : Env) (argv : list string) (timeout : Z)
  : M Z :=
  ([SubprocessRun argv timeout], nvidia_smi env).

(** [except (FileNotFoundError, subprocess.TimeoutExpired)]. *)
Definition probe_handled (e : exn) : bool :=
  match e with
  | FileNotFoundError | TimeoutExpired => true
  | _ => false
  end.

(** Lines 152-164, the branch for ["Windows"]. *)
Definition windows_codec (env : Env) : M (option string) :=
  try_except
    (returncode <- subprocess_run env ["nvidia-smi"] 5 ;;
     if (returncode =? 0)%Z then
       c <- hw_accel_codec "nvidia" ;; ret (Some c)
     else
       c <- hw_accel_codec "intel" ;; ret (Some c))
    probe_handled
    (c <- hw_accel_codec "intel" ;; ret (Some c)).

(** Lines 167-179, the branch for ["Linux"]. *)
Definition linux_codec (env : Env) : M (option string) :=
  try_except
    (returncode <- subprocess_run env ["nvidia-smi"] 5 ;;
     if (returncode =? 0)%Z then
       c <- hw_accel_codec "nvidia" ;; ret (Some c)
     else
       c <- hw_accel_codec "intel" ;; ret (Some c))
    probe_handled
    (c <- hw_accel_codec "intel" ;; ret (Some c)).

(** Lines 144-179: the value of [codec_to_use] ([None] when no branch
    assigns it). *)
Definition codec_to_use (env : Env) : M (option string) :=
  if String.eqb (system env) "Darwin" then
    c <- hw_accel_codec "apple" ;; ret (Some c)
  else if String.eqb (system env) "Windows" then windows_codec env
  else if String.eqb (system env) "Linux" then linux_codec env
  else ret None.

(** Lines 143-187: the value stored in [kwargs["vcodec"]].  The test
    [if codec_to_use:] is false for [None] and for the empty string. *)
Definition vcodec (env : Env) (a : Args) : M string :=
  if use_gpu a then
    c <- codec_to_use env ;;
    match c with
    | Some s => if String.eqb s "" then ret "libx264" else ret s
    | None => ret "libx264"
    end
  else ret "libx264".

(** Lines 77-192: the body of the [try]. *)
Definition try_body (env : Env) (a : Args) : M unit :=
  v <- final_video a ;;
  let output_args := [v] in
  let '(output_args, kw) := audio_processing a output_args (kwargs a) in
  codec <- vcodec env a ;;
  let kw := dict_set kw "vcodec" (AStr codec) in
  ([FfmpegRun output_args (output_file a) kw true (quiet a)], ffmpeg_run env).

(** How a call of [create_boomerang] ends. *)
Inductive outcome : Type :=
| Returns
| Raises (e : exn)
| SysExit (code : Z).

(** The validation and the [try] body (lines 47-59 and 77-206).  The
    validation precedes the [try], so its [ValueError] leaves the
    function; each of the three handlers of the [try] ends in
    [sys.exit(1)].  The steps between the two (output directory,
    [print]s) are not part of this definition, and only exceptions
    derived from [Exception] are considered, with handlers that do not
    fail themselves. *)
Definition create_boomerang (env : Env) (a : Args) : list event * outcome :=
  match input_validation a with
  | (t, Raise e) => (t, Raises e)
  | (t, Ok _) =>
      match try_body env a with
      | (t', Ok _) => (t ++ t', Returns)
      | (t', Raise _) => (t ++ t', SysExit 1)
      end
  end.

(** The plan handed to the engine, if the call got that far. *)
Fixpoint plan_of (t : list event) : option (list stream * dict) :=
  match t with
  | [] => None
  | FfmpegRun outs _ kw _ _ :: _ => Some (outs, kw)
  | _ :: t' => plan_of t'
  end.

(** Number of runs of an external probe in a trace. *)
Fixpoint probe_runs (t : list event) : nat :=
  match t with
  | [] => 0
  | SubprocessRun _ _ :: t' => S (probe_runs t')
  | _ :: t' => probe_runs t'
  end.

(** ** Vocabulary of the specification

    The node names of the specification are these graph nodes:
    [Trim] is the [Input] with its [ss] and [t] options; [Reverse] is the
    filter [reverse] (video) or [areverse] (audio); [Crossfade] is
    [xfade]; [SetSpeed] is [setpts]; [Tempo] is [atempo]; [DiscardAudio]
    is the output option [an].  The validation errors are the
    [ValueError]s below. *)

Definition NegativeStartTime : exn :=
  ValueError "Start time cannot be negative".
Definition NonPositiveDuration : exn :=
  ValueError "Duration must be positive".
Definition NonPositiveSpeed : exn :=
  ValueError "Speed must be positive".
Definition NegativeFadeDuration : exn :=
  ValueError "Fade duration cannot be negative".
Definition FadeExceedsDuration : exn :=
  ValueError "Fade duration must be less than total duration".
Definition CrfOutOfRange : exn :=
  ValueError "CRF must be between 0 and 51".

(** The validation as the specification words it: six requirements, each
    stated positively, checked in order; the first one that does not hold
    decides the error. *)
Definition spec_validate (a : Args) : result unit :=
  if negb (Py.ge (start_time a) 0) then Raise NegativeStartTime
  else if negb (Py.gt (duration a) 0) then Raise NonPositiveDuration
  else if negb (Py.gt (speed a) 0) then Raise NonPositiveSpeed
  else if negb (Py.ge (fade_duration a) 0) then Raise NegativeFadeDuration
  else if negb (Py.lt (fade_duration a) (duration a)) then
    Raise FadeExceedsDuration
  else if negb ((0 <=? crf a)%Z && (crf a <=? 51)%Z) then Raise CrfOutOfRange
  else Ok tt.

(** All six requirements hold. *)
Definition requirements (a : Args) : Prop :=
  Py.ge (start_time a) 0 = true /\
  Py.gt (duration a) 0 = true /\
  Py.gt (speed a) 0 = true /\
  Py.ge (fade_duration a) 0 = true /\
  Py.lt (fade_duration a) (duration a) = true /\
  (0 <= crf a <= 51)%Z.

(** None of the four [float] arguments is a NaN. *)
Definition no_nan (a : Args) : bool :=
  negb (is_nan (start_time a)) && negb (is_nan (duration a))
  && negb (is_nan (speed a)) && negb (is_nan (fade_duration a)).

(** The request passes the validation. *)
Definition valid (a : Args) : Prop := input_validation a = ret tt.


(** A request with the defaults of the command line. *)
Definition default_args : Args :=
  {| input_file := "in.mp4"; output_file := "in_boomerang.mp4";
     start_time := 0; duration := 3; speed := 1; crf := 23;
     preset := "medium"; fade_duration := 0;
     include_audio := false; use_gpu := false; quiet := false |}.

Definition with_speed (a : Args) (s : float) : Args :=
  {| input_file := input_file a; output_file := output_file a;
     start_time := start_time a; duration := duration a; speed := s;
     crf := crf a; preset := preset a; fade_duration := fade_duration a;
     include_audio := include_audio a; use_gpu := use_gpu a;
     quiet := quiet a |}.

(** A chain without its top node, when that node is the filter [name]
    applied to a single input. *)
Definition below (name : string) (s : stream) : stream :=
  match s with
  | Filter [s'] n _ _ => if String.eqb n name then s' else s
  | _ => s
  end.

(** Requests used as examples. *)
Definition nan_start_request : Args :=
  {| input_file := "in.mp4"; output_file := "in_boomerang.mp4";
     start_time := nan; duration := 3; speed := 1; crf := 23;
     preset := "medium"; fade_duration := 0;
     include_audio := false; use_gpu := false; quiet := false |}.

Definition nan_duration_request : Args :=
  {| input_file := "in.mp4"; output_file := "in_boomerang.mp4";
     start_time := 0; duration := nan; speed := 1; crf := 23;
     preset := "medium"; fade_duration := 0.3;
     include_audio := false; use_gpu := false; quiet := false |}.

Definition negative_start_request : Args :=
  {| input_file := "in.mp4"; output_file := "in_boomerang.mp4";
     start_time := -1; duration := 3; speed := 1; crf := 23;
     preset := "medium"; fade_duration := 5;
     include_audio := false; use_gpu := false; quiet := false |}.

Definition smooth_fast_request : Args :=
  {| input_file := "in.mp4"; output_file := "loop.mp4";
     start_time := 0; duration := 3; speed := 2; crf := 18;
     preset := "slow"; fade_duration := 0.3;
     include_audio := true; use_gpu := true; quiet := true |}.

Definition linux_without_gpu : Env :=
  {| system := "Linux"; nvidia_smi := Raise FileNotFoundError;
     ffmpeg_run := Ok tt |}.

(** ** The rest of the file: output directory and command line *)

(** The [Input] nodes a stream is built from. *)
Fixpoint sources (s : stream) : list stream :=
  match s with
  | Input f kw => [Input f kw]
  | Select s' _ => sources s'
  | Filter ins _ _ _ => flat_map sources ins
  | Concat ins _ => flat_map sources ins
  end.

(** Events of the whole program: the creation of a directory, besides
    the events of the [try] body. *)
Inductive io_event : Type :=
| Makedirs (dir : string)
| Run (e : event).

(** The host with its file system: what [os.path.exists],
    [os.path.dirname], [os.path.splitext] and [os.makedirs] answer. *)
Record Host : Type := mkHost {
  env : Env;
  path_exists : string -> bool;
  dirname : string -> string;
  splitext : string -> string * string;
  makedirs : string -> result unit
}.

(** Lines 62-64. *)
Definition output_directory (h : Host) (a : Args)
  : list io_event * result unit :=
  let output_dir := dirname h (output_file a) in
  if negb (String.eqb output_dir "") && negb (path_exists h output_dir) then
    ([Makedirs output_dir], makedirs h output_dir)
  else ([], Ok tt).

(** Lines 47-206, with the output directory.  An exception of
    [os.makedirs] is raised before the [try].  The [print]s are left
    out, as in [create_boomerang]. *)
Definition create_boomerang_io (h : Host) (a : Args)
  : list io_event * outcome :=
  match input_validation a with
  | (t, Raise e) => (map Run t, Raises e)
  | (t, Ok _) =>
      match output_directory h a with
      | (d, Raise e) => (map Run t ++ d, Raises e)
      | (d, Ok _) =>
          match try_body (env h) a with
          | (t', Ok _) => (map Run t ++ d ++ map Run t', Returns)
          | (t', Raise _) => (map Run t ++ d ++ map Run t', SysExit 1)
          end
      end
  end.

(** The events of the [try] body in a trace of the whole program. *)
Fixpoint run_events (t : list io_event) : list event :=
  match t with
  | [] => []
  | Run e :: t' => e :: run_events t'
  | Makedirs _ :: t' => run_events t'
  end.

Module Cli.

(** The namespace [parser.parse_args()] returns (lines 228-247);
    [output_file] is [None] when [-o] is not given. *)
Record Namespace : Type := mkNamespace {
  input_file : string;
  output_file : option string;
  start_time : float;
  duration : float;
  speed : float;
  crf : Z;
  preset : string;
  use_gpu : bool;
  fade_duration : float;
  include_audio : bool;
  quiet : bool
}.

End Cli.

(** Lines 253-255: the output path after the default is filled in. *)
Definition default_output (h : Host) (ns : Cli.Namespace) : string :=
  match Cli.output_file ns with
  | Some o => o
  | None =>
      let (base, _) := splitext h (Cli.input_file ns) in
      (base ++ "_boomerang.mp4")%string
  end.

(** [**vars(args)], after line 255. *)
Definition vars (h : Host) (ns : Cli.Namespace) : Args :=
  {| input_file := Cli.input_file ns;
     output_file := default_output h ns;
     start_time := Cli.start_time ns;
     duration := Cli.duration ns;
     speed := Cli.speed ns;
     crf := Cli.crf ns;
     preset := Cli.preset ns;
     fade_duration := Cli.fade_duration ns;
     include_audio := Cli.include_audio ns;
     use_gpu := Cli.use_gpu ns;
     quiet := Cli.quiet ns |}.

(** Lines 249-257: [main] after the parsing. *)
Definition main (h : Host) (ns : Cli.Namespace) : list io_event * outcome :=
  if negb (path_exists h (Cli.input_file ns)) then ([], SysExit 1)
  else create_boomerang_io h (vars h ns).

(** What the documentation of [os.path.splitext] promises: the two parts
    give back the path, and the extension is empty or starts with a
    period. *)
Definition splitext_contract (f : string -> string * string) : Prop :=
  forall p,
    (fst (f p) ++ snd (f p))%string = p /\
    (snd (f p) = "" \/ exists r, snd (f p) = String "."%char r).

(** A host for examples: no file but ["in.mp4"], no directory, and a
    path module that finds no directory part and only the extension of
    ["in.mp4"]. *)
Definition bare_host (e : Env) : Host :=
  {| env := e;
     path_exists := fun p => String.eqb p "in.mp4";
     dirname := fun _ => "";
     splitext := fun p =>
       if String.eqb p "in.mp4" then ("in", ".mp4") else (p, "");
     makedirs := fun _ => Ok tt |}.

Definition default_namespace (input : string) : Cli.Namespace :=
  {| Cli.input_file := input; Cli.output_file := None;
     Cli.start_time := 0; Cli.duration := 3; Cli.speed := 1;
     Cli.crf := 23; Cli.preset := "medium"; Cli.use_gpu := false;
     Cli.fade_duration := 0; Cli.include_audio := false;
     Cli.quiet := false |}.

(** ** Facts about binary64 comparison *)

Lemma SFcompare_antisym (x y : spec_float) :
  SFcompare y x = option_map CompOpp (SFcompare x y).
Proof.
  destruct x as [sx|sx| |sx mx ex], y as [sy|sy| |sy my ey]; simpl;
    try reflexivity;
    try (destruct sx; reflexivity);
    try (destruct sy; reflexivity);
    try (destruct sx, sy; reflexivity).
  destruct sx, sy; simpl; try reflexivity;
    rewrite (Z.compare_antisym ex ey);
    destruct (ex ?= ey)%Z; simpl; try reflexivity;
    rewrite (Pos.compare_cont_antisym mx my Eq); simpl;
    try rewrite CompOpp_involutive; reflexivity.
Qed.

Lemma SFcompare_refl (x : spec_float) :
  x <> S754_nan -> SFcompare x x = Some Eq.
Proof.
  destruct x as [s|s| |s m e]; simpl; intros H; try congruence.
  - destruct s; reflexivity.
  - destruct s; rewrite Z.compare_refl, Pos.compare_cont_refl; reflexivity.
Qed.

Lemma is_nan_spec (x : float) :
  is_nan x = false <-> Prim2SF x <> S754_nan.
Proof.
  unfold is_nan. rewrite FloatAxioms.eqb_spec. unfold SFeqb. split.
  - intros H E. rewrite E in H. discriminate H.
  - intros H. rewrite (SFcompare_refl _ H). reflexivity.
Qed.

Lemma SFcompare_some (x y : spec_float) :
  x <> S754_nan -> y <> S754_nan -> exists c, SFcompare x y = Some c.
Proof.
  destruct x as [sx|sx| |sx mx ex], y as [sy|sy| |sy my ey]; simpl;
    intros Hx Hy; try congruence; eauto.
Qed.

Lemma SFcompare_not_nan (x y : spec_float) (c : comparison) :
  SFcompare x y = Some c -> x <> S754_nan /\ y <> S754_nan.
Proof.
  destruct x, y; simpl; intros H; split; congruence.
Qed.

(** Without NaNs the order is total: [x <= y] is the negation of [y < x]. *)
Lemma leb_negb_ltb (x y : float) :
  is_nan x = false -> is_nan y = false ->
  (x <=? y)%float = negb (y <? x)%float.
Proof.
  rewrite !is_nan_spec, FloatAxioms.leb_spec, FloatAxioms.ltb_spec. intros Hx Hy.
  unfold SFleb, SFltb. rewrite (SFcompare_antisym (Prim2SF x) (Prim2SF y)).
  destruct (SFcompare_some _ _ Hx Hy) as [c ->]. destruct c; reflexivity.
Qed.

Lemma ltb_not_nan (x y : float) :
  (x <? y)%float = true -> is_nan x = false /\ is_nan y = false.
Proof.
  rewrite !is_nan_spec, FloatAxioms.ltb_spec. unfold SFltb.
  destruct (SFcompare (Prim2SF x) (Prim2SF y)) as [c|] eqn:E; try discriminate.
  intros _. exact (SFcompare_not_nan _ _ _ E).
Qed.

Lemma Prim2SF_zero : Prim2SF 0 = S754_zero false.
Proof. reflexivity. Qed.

(** A value that is not [<= 0] is not a zero, so dividing by it is safe. *)
Lemma not_le_zero_not_zero (x : float) :
  (x <=? 0)%float = false -> (x =? 0)%float = false.
Proof.
  rewrite FloatAxioms.leb_spec, FloatAxioms.eqb_spec, Prim2SF_zero.
  unfold SFleb, SFeqb.
  destruct (Prim2SF x) as [s|s| |s m e]; simpl; try congruence;
    destruct s; simpl; congruence.
Qed.

(** [0 < d <= f] leaves no room for [f < 0]. *)
Lemma above_positive_not_negative (d f : float) :
  (d <=? f)%float = true -> (d <=? 0)%float = false ->
  (f <? 0)%float = false.
Proof.
  rewrite !FloatAxioms.leb_spec, FloatAxioms.ltb_spec, Prim2SF_zero.
  unfold SFleb, SFltb.
  destruct (Prim2SF d) as [sd|sd| |sd md ed],
           (Prim2SF f) as [sf|sf| |sf mf ef]; simpl; try congruence;
    try (destruct sd; simpl; congruence);
    try (destruct sf; simpl; congruence);
    destruct sd, sf; simpl; congruence.
Qed.

(** Anything above a positive value is not [<= 0]. *)
Lemma above_positive_not_le_zero (x s : float) :
  (0 <? x)%float = true -> (x <? s)%float = true ->
  (s <=? 0)%float = false.
Proof.
  rewrite !FloatAxioms.ltb_spec, FloatAxioms.leb_spec, Prim2SF_zero.
  unfold SFleb, SFltb.
  destruct (Prim2SF x) as [sx|sx| |sx mx ex],
           (Prim2SF s) as [ss|ss| |ss ms es]; simpl; try congruence;
    try (destruct sx; simpl; congruence);
    try (destruct ss; simpl; congruence);
    destruct sx, ss; simpl; congruence.
Qed.

(** ** The validation, condition by condition *)

Lemma valid_inv (a : Args) :
  valid a <->
  Py.lt (start_time a) 0 = false /\
  Py.le (duration a) 0 = false /\
  Py.le (speed a) 0 = false /\
  Py.lt (fade_duration a) 0 = false /\
  Py.ge (fade_duration a) (duration a) = false /\
  (0 <= crf a <= 51)%Z.
Proof.
  unfold valid, input_validation, raise, ret.
  destruct (Py.lt (start_time a) 0); [split; [discriminate | intuition discriminate] |].
  destruct (Py.le (duration a) 0); [split; [discriminate | intuition discriminate] |].
  destruct (Py.le (speed a) 0); [split; [discriminate | intuition discriminate] |].
  destruct (Py.lt (fade_duration a) 0); [split; [discriminate | intuition discriminate] |].
  destruct (Py.ge (fade_duration a) (duration a));
    [split; [discriminate | intuition discriminate] |].
  destruct (Z.ltb_spec (crf a) 0); simpl.
  - split; [discriminate | intros (_ & _ & _ & _ & _ & H0); lia].
  - destruct (crf a >? 51)%Z eqn:E.
    + split; [discriminate |].
      intros (_ & _ & _ & _ & _ & H0).
      apply Z.gtb_lt in E. lia.
    + split; [| reflexivity]. intros _.
      rewrite Z.gtb_ltb in E. apply Z.ltb_ge in E.
      repeat split; try reflexivity; lia.
Qed.

Lemma input_validation_silent (a : Args) : fst (input_validation a) = [].
Proof.
  unfold input_validation, raise, ret.
  repeat match goal with
         | |- context [if ?b then _ else _] => destruct b
         end; reflexivity.
Qed.

Lemma valid_speed_nonzero (a : Args) :
  valid a -> (speed a =? 0)%float = false.
Proof.
  intros H. apply valid_inv in H. destruct H as (_ & _ & H & _).
  apply not_le_zero_not_zero. exact H.
Qed.

Lemma final_video_valid (a : Args) :
  valid a ->
  final_video a
  = ret (Filter [joined_video a] "setpts"
                [AFmt (1 / speed a)%float "*PTS"] []).
Proof.
  intros H. unfold final_video, Py.truediv.
  rewrite (valid_speed_nonzero a H). reflexivity.
Qed.

(** ** From the call to the plan *)

(** The only events of the encoder choice are probe runs. *)
Lemma vcodec_trace (env : Env) (a : Args) :
  fst (vcodec env a) = [] \/
  fst (vcodec env a) = [SubprocessRun ["nvidia-smi"] 5].
Proof.
  unfold vcodec, codec_to_use, windows_codec, linux_codec, subprocess_run.
  destruct (use_gpu a); [| left; reflexivity].
  destruct (String.eqb (system env) "Darwin"); [left; reflexivity |].
  destruct (String.eqb (system env) "Windows");
    [| destruct (String.eqb (system env) "Linux"); [| left; reflexivity]];
    destruct (nvidia_smi env) as [rc | e]; simpl;
    try (destruct (rc =? 0)%Z; right; reflexivity);
    destruct e; right; reflexivity.
Qed.

(** A valid request whose encoder choice completes reaches the engine with
    exactly this plan. *)
Lemma create_boomerang_plan (env : Env) (a : Args) (codec : string) :
  valid a -> snd (vcodec env a) = Ok codec ->
  plan_of (fst (create_boomerang env a))
  = Some (fst (audio_processing a
                 [Filter [joined_video a] "setpts"
                         [AFmt (1 / speed a)%float "*PTS"] []] (kwargs a)),
          dict_set (snd (audio_processing a
                 [Filter [joined_video a] "setpts"
                         [AFmt (1 / speed a)%float "*PTS"] []] (kwargs a)))
                   "vcodec" (AStr codec)).
Proof.
  intros Hv Hc. unfold create_boomerang. rewrite Hv. unfold ret at 1.
  unfold try_body. rewrite (final_video_valid a Hv).
  unfold ret at 1. cbn [bind].
  destruct (audio_processing a _ (kwargs a)) as [outs kw] eqn:Ea.
  destruct (vcodec_trace env a) as [Ht | Ht];
    destruct (vcodec env a) as [t r]; simpl in Ht, Hc; subst t r;
    cbn [bind fst snd app];
    destruct (ffmpeg_run env); reflexivity.
Qed.

Lemma eq_zero_not_gt (x : float) :
  (x =? 0)%float = true -> (0 <? x)%float = false.
Proof.
  rewrite FloatAxioms.eqb_spec, FloatAxioms.ltb_spec, Prim2SF_zero.
  unfold SFeqb, SFltb.
  destruct (Prim2SF x) as [s|s| |s m e]; simpl; try congruence;
    destruct s; simpl; congruence.
Qed.

Lemma count_setpts_joined (a : Args) :
  count_filter "setpts" (joined_video a) = 0.
Proof.
  unfold joined_video.
  destruct (Py.gt (fade_duration a) 0 && Py.gt (duration a) (fade_duration a));
    reflexivity.
Qed.

(** After the validation, a positive fade below a [duration] that is a
    number selects the [xfade] branch. *)
Lemma joined_video_xfade (a : Args) :
  valid a -> Py.gt (fade_duration a) 0 = true -> is_nan (duration a) = false ->
  joined_video a
  = Filter [forward_video a; reverse_video a] "xfade" []
           [ ("transition", AStr "fade");
             ("duration", AFloat (fade_duration a));
             ("offset", AFloat (duration a - fade_duration a)%float) ].
Proof.
  intros Hv Hpos Hd. apply valid_inv in Hv.
  destruct Hv as (_ & _ & _ & _ & Hge & _).
  assert (Hx : Py.gt (duration a) (fade_duration a) = true).
  { unfold Py.gt, Py.ge in *.
    destruct (ltb_not_nan _ _ Hpos) as [_ Hf].
    rewrite (leb_negb_ltb _ _ Hd Hf) in Hge.
    destruct (fade_duration a <? duration a)%float;
      [reflexivity | discriminate]. }
  unfold joined_video. rewrite Hpos, Hx. reflexivity.
Qed.

(** ** The video chain *)

(** The join when [duration] is a number: for every request that passes
    validation, a [fade_duration] equal to zero gives the plain [Concat]
    of the forward and the reversed branch, forward first, and no [xfade]
    node; a
    [fade_duration] above zero gives, when [duration] is a number (not a
    NaN), the [xfade] node with [duration = fade_duration] and
    [offset = duration - fade_duration].  With [duration = 3.0] and
    [fade_duration = 0.3] the offset is [2.7]. *)
Theorem video_join_by_fade_duration (a : Args) :
  valid a ->
  ((fade_duration a =? 0)%float = true ->
   joined_video a = Concat [forward_video a; reverse_video a] [] /\
   count_filter "xfade" (joined_video a) = 0) /\
  (Py.gt (fade_duration a) 0 = true -> is_nan (duration a) = false ->
   joined_video a
   = Filter [forward_video a; reverse_video a] "xfade" []
            [ ("transition", AStr "fade");
              ("duration", AFloat (fade_duration a));
              ("offset", AFloat (duration a - fade_duration a)%float) ]) /\
  (duration a = 3%float -> fade_duration a = 0.3%float ->
   joined_video a
   = Filter [forward_video a; reverse_video a] "xfade" []
            [ ("transition", AStr "fade");
              ("duration", AFloat 0.3);
              ("offset", AFloat 2.7) ]).
Proof.
  intros Hv. split; [| split].
  - intros Hz.
    assert (E : joined_video a = Concat [forward_video a; reverse_video a] []).
    { unfold joined_video, Py.gt. rewrite (eq_zero_not_gt _ Hz). reflexivity. }
    rewrite E. split; reflexivity.
  - intros Hpos Hd. exact (joined_video_xfade a Hv Hpos Hd).
  - intros Ed Ef.
    assert (Hpos : Py.gt (fade_duration a) 0 = true)
      by (rewrite Ef; reflexivity).
    assert (Hd : is_nan (duration a) = false) by (rewrite Ed; reflexivity).
    rewrite (joined_video_xfade a Hv Hpos Hd), Ed, Ef. reflexivity.
Qed.

Lemma video_join_by_fade_duration_witness :
  valid smooth_fast_request /\
  joined_video smooth_fast_request
  = Filter [forward_video smooth_fast_request;
            reverse_video smooth_fast_request] "xfade" []
           [ ("transition", AStr "fade");
             ("duration", AFloat 0.3);
             ("offset", AFloat 2.7) ].
Proof.
  assert (Hv : valid smooth_fast_request) by reflexivity.
  split; [exact Hv |].
  apply (video_join_by_fade_duration smooth_fast_request Hv); reflexivity.
Defined.

(** C1, where the code departs from it: the tests of lines 50 and 56 are
    both false on a NaN, so a request whose [duration] is a NaN passes the
    validation, against the messages of lines 51 and 57; it has
    [fade_duration > 0], and its join is the [Concat], not the [xfade]. *)
Lemma nan_duration_joins_by_concat :
  valid nan_duration_request /\
  Py.gt (fade_duration nan_duration_request) 0 = true /\
  joined_video nan_duration_request
  = Concat [forward_video nan_duration_request;
            reverse_video nan_duration_request] [].
Proof. repeat split. Qed.

(** ** The validation *)

(** The validation on numbers: for every request none of whose [float]
    arguments is a NaN, the validation performs no effect, agrees with the ordered checks of the
    specification (so it fails with the error of the first requirement
    that does not hold), and succeeds exactly when all six requirements
    hold; [crf = 0] and [crf = 51] are within the range.  After a
    successful validation the body runs on the same arguments. *)
Theorem validation_without_nan (a : Args) :
  no_nan a = true ->
  fst (input_validation a) = [] /\
  snd (input_validation a) = spec_validate a /\
  (valid a <-> requirements a) /\
  (valid a -> forall env,
     create_boomerang env a
     = match try_body env a with
       | (t, Ok _) => (t, Returns)
       | (t, Raise _) => (t, SysExit 1)
       end).
Proof.
  unfold no_nan. intros H.
  apply andb_prop in H; destruct H as [H Hf].
  apply andb_prop in H; destruct H as [H Hs].
  apply andb_prop in H; destruct H as [Ht Hd].
  apply negb_true_iff in Ht, Hd, Hs, Hf.
  assert (H0 : is_nan 0 = false) by reflexivity.
  assert (E1 : Py.ge (start_time a) 0 = negb (Py.lt (start_time a) 0))
    by (apply leb_negb_ltb; assumption).
  assert (E2 : Py.le (duration a) 0 = negb (Py.gt (duration a) 0))
    by (apply leb_negb_ltb; assumption).
  assert (E3 : Py.le (speed a) 0 = negb (Py.gt (speed a) 0))
    by (apply leb_negb_ltb; assumption).
  assert (E4 : Py.ge (fade_duration a) 0 = negb (Py.lt (fade_duration a) 0))
    by (apply leb_negb_ltb; assumption).
  assert (E5 : Py.ge (fade_duration a) (duration a)
               = negb (Py.lt (fade_duration a) (duration a)))
    by (apply leb_negb_ltb; assumption).
  assert (E6 : negb ((0 <=? crf a)%Z && (crf a <=? 51)%Z)
               = ((crf a <? 0)%Z || (crf a >? 51)%Z)).
  { rewrite negb_andb, Z.gtb_ltb, !Z.leb_antisym, !negb_involutive.
    reflexivity. }
  split; [apply input_validation_silent |]. split; [| split].
  - unfold input_validation, spec_validate.
    rewrite E1, E2, E3, E4, E5, E6, !negb_involutive.
    repeat match goal with
           | |- context [if ?b then _ else _] => destruct b
           end; reflexivity.
  - rewrite valid_inv. unfold requirements.
    rewrite E1, E2, E3, E4, E5, !negb_true_iff, !negb_false_iff.
    tauto.
  - intros Hv env. unfold create_boomerang. rewrite Hv. unfold ret.
    destruct (try_body env a) as [t [u | e]]; reflexivity.
Qed.

Lemma validation_without_nan_witness :
  no_nan smooth_fast_request = true /\
  snd (input_validation smooth_fast_request) = Ok tt /\
  spec_validate smooth_fast_request = Ok tt.
Proof.
  assert (H : no_nan smooth_fast_request = true) by reflexivity.
  split; [exact H |].
  destruct (validation_without_nan smooth_fast_request H) as (_ & E & _).
  split; [reflexivity | rewrite <- E; reflexivity].
Defined.

(** C2, where the code departs from it: the test of line 48 is false on a
    NaN, so a NaN [start_time] passes the validation although the
    requirement [start_time >= 0] does not hold; the ordered checks of
    the specification answer [NegativeStartTime]. *)
Lemma nan_start_time_passes :
  input_validation nan_start_request = ret tt /\
  Py.ge (start_time nan_start_request) 0 = false /\
  spec_validate nan_start_request = Raise NegativeStartTime.
Proof. repeat split. Qed.

(** C6: every request with [fade_duration >= duration] is rejected by the
    validation with a [ValueError], with no effect and no plan; the error
    is [FadeExceedsDuration] whenever none of the three earlier checks
    rejects the request (start time not negative, duration and speed not
    [<= 0]). *)
Theorem fade_not_below_duration_rejected (a : Args) :
  Py.ge (fade_duration a) (duration a) = true ->
  (exists msg, forall env,
     create_boomerang env a = ([], Raises (ValueError msg))) /\
  (forall env, plan_of (fst (create_boomerang env a)) = None) /\
  (Py.lt (start_time a) 0 = false ->
   Py.le (duration a) 0 = false ->
   Py.le (speed a) 0 = false ->
   input_validation a = raise FadeExceedsDuration).
Proof.
  intros Hge.
  assert (Hr : exists msg, input_validation a = raise (ValueError msg)).
  { unfold input_validation. rewrite Hge.
    repeat match goal with
           | |- context [if ?b then _ else _] => destruct b
           end; eauto. }
  destruct Hr as [msg Hr].
  split; [| split].
  - exists msg. intros env. unfold create_boomerang. rewrite Hr. reflexivity.
  - intros env. unfold create_boomerang. rewrite Hr. reflexivity.
  - intros Ht Hd Hs.
    assert (Hf : Py.lt (fade_duration a) 0 = false)
      by (apply (above_positive_not_negative (duration a)); assumption).
    unfold input_validation. rewrite Ht, Hd, Hs, Hf, Hge. reflexivity.
Qed.

Lemma fade_not_below_duration_rejected_witness :
  Py.ge 3 3 = true /\
  input_validation
    {| input_file := "in.mp4"; output_file := "out.mp4";
       start_time := 0; duration := 3; speed := 1; crf := 23;
       preset := "medium"; fade_duration := 3;
       include_audio := true; use_gpu := false; quiet := false |}
  = raise FadeExceedsDuration.
Proof.
  split; [reflexivity |].
  apply fade_not_below_duration_rejected; reflexivity.
Defined.

(** C6 depends on the earlier checks: with a negative start time the
    request is rejected for the start time, although
    [fade_duration >= duration]. *)
Lemma negative_start_reported_first :
  Py.ge (fade_duration negative_start_request)
        (duration negative_start_request) = true /\
  input_validation negative_start_request
  = raise (ValueError "Start time cannot be negative").
Proof. repeat split. Qed.

(** ** The encoder choice *)






Lemma probe_runs_app (t t' : list event) :
  probe_runs (t ++ t') = probe_runs t + probe_runs t'.
Proof.
  induction t as [| ev t IH]; simpl; [reflexivity |].
  destruct ev; simpl; rewrite IH; reflexivity.
Qed.

Lemma final_video_silent (a : Args) : fst (final_video a) = [].
Proof.
  unfold final_video, Py.truediv.
  destruct (speed a =? 0)%float; reflexivity.
Qed.

(** The probe runs in a call only when the encoder choice runs it. *)
Lemma create_boomerang_probe_runs (env : Env) (a : Args) :
  probe_runs (fst (create_boomerang env a))
  <= probe_runs (fst (vcodec env a)).
Proof.
  unfold create_boomerang.
  pose proof (input_validation_silent a) as Hi.
  destruct (input_validation a) as [ti [u | e]]; simpl in Hi; subst ti;
    [| simpl; lia].
  unfold try_body. pose proof (final_video_silent a) as Hf.
  destruct (final_video a) as [tv [v | e]]; simpl in Hf; subst tv;
    [| simpl; lia].
  cbn [bind]. destruct (audio_processing a [v] (kwargs a)) as [outs kw].
  destruct (vcodec env a) as [tc [c | e]]; cbn [bind fst app].
  - destruct (ffmpeg_run env); cbn [fst app];
      rewrite probe_runs_app; simpl; lia.
  - simpl. lia.
Qed.

(** C7: with [use_gpu] set on macOS the codec is [h264_videotoolbox], a
    hardware encoder, whatever the probe would answer; the probe is not
    run, neither in the choice nor in the whole call. *)
Theorem macos_uses_videotoolbox
  (probe : result Z) (run : result unit) (a : Args) :
  use_gpu a = true ->
  vcodec (mkEnv "Darwin" probe run) a = ([], Ok "h264_videotoolbox") /\
  is_hardware_accelerated "h264_videotoolbox" = true /\
  probe_runs (fst (create_boomerang (mkEnv "Darwin" probe run) a)) = 0.
Proof.
  intros Hg.
  assert (E : vcodec (mkEnv "Darwin" probe run) a
              = ([], Ok "h264_videotoolbox")).
  { unfold vcodec. rewrite Hg. reflexivity. }
  split; [exact E |]. split; [reflexivity |].
  pose proof (create_boomerang_probe_runs (mkEnv "Darwin" probe run) a) as H.
  rewrite E in H. simpl in H. lia.
Qed.

Lemma macos_uses_videotoolbox_witness :
  use_gpu smooth_fast_request = true /\
  vcodec (mkEnv "Darwin" (Ok 0%Z) (Ok tt)) smooth_fast_request
  = ([], Ok "h264_videotoolbox").
Proof.
  split; [reflexivity |].
  destruct (macos_uses_videotoolbox (Ok 0%Z) (Ok tt) smooth_fast_request
              eq_refl) as (E & _).
  exact E.
Defined.

(** C8: without [use_gpu] the codec is [libx264], not a hardware encoder,
    on every system and for every answer of the probe; the probe is not
    run, neither in the choice nor in the whole call. *)
Theorem cpu_encoder_without_gpu (env : Env) (a : Args) :
  use_gpu a = false ->
  vcodec env a = ([], Ok "libx264") /\
  is_hardware_accelerated "libx264" = false /\
  probe_runs (fst (create_boomerang env a)) = 0.
Proof.
  intros Hg.
  assert (E : vcodec env a = ([], Ok "libx264")).
  { unfold vcodec. rewrite Hg. reflexivity. }
  split; [exact E |]. split; [reflexivity |].
  pose proof (create_boomerang_probe_runs env a) as H.
  rewrite E in H. simpl in H. lia.
Qed.

Lemma cpu_encoder_without_gpu_witness :
  use_gpu default_args = false /\
  vcodec (mkEnv "Windows" (Ok 0%Z) (Ok tt)) default_args
  = ([], Ok "libx264").
Proof.
  split; [reflexivity |].
  destruct (cpu_encoder_without_gpu (mkEnv "Windows" (Ok 0%Z) (Ok tt))
              default_args eq_refl) as (E & _).
  exact E.
Defined.

(** ** The audio chain *)

Lemma SFeqb_finite (x : spec_float) (s : bool) (m : positive) (e : Z) :
  SFeqb x (S754_finite s m e) = true -> x = S754_finite s m e.
Proof.
  unfold SFeqb.
  destruct x as [sx|sx| |sx mx ex]; simpl; try discriminate;
    try (destruct sx, s; discriminate).
  change (Pos.compare_cont Eq mx m) with (mx ?= m)%positive.
  destruct sx, s; try discriminate;
    destruct (Z.compare_spec ex e) as [Ee | Ee | Ee]; try discriminate;
    destruct (Pos.compare_spec mx m) as [Em | Em | Em]; try discriminate;
    intros _; subst; reflexivity.
Qed.

Lemma above_hundred_not_one (s : float) :
  (100 <? s)%float = true -> (s =? 1)%float = false.
Proof.
  intros H. destruct (s =? 1)%float eqn:E; [| reflexivity].
  rewrite FloatAxioms.eqb_spec in E.
  remember (Prim2SF 1) as one eqn:H1. vm_compute in H1. subst one.
  apply SFeqb_finite in E.
  rewrite FloatAxioms.ltb_spec, E in H. vm_compute in H. discriminate H.
Qed.

Lemma count_xfade_final_audio (a : Args) :
  count_filter "xfade" (final_audio a) = 0.
Proof. unfold final_audio. destruct (Py.ne (speed a) 1); reflexivity. Qed.

Lemma below_atempo_final_audio (a : Args) :
  below "atempo" (final_audio a) = joined_audio a.
Proof. unfold final_audio. destruct (Py.ne (speed a) 1); reflexivity. Qed.

Lemma plan_with_audio (env : Env) (a : Args) (codec : string) :
  valid a -> include_audio a = true -> snd (vcodec env a) = Ok codec ->
  exists v kw,
    plan_of (fst (create_boomerang env a)) = Some ([v; final_audio a], kw).
Proof.
  intros Hv Ha Hc. rewrite (create_boomerang_plan env a codec Hv Hc).
  unfold audio_processing. rewrite Ha. simpl. eauto.
Qed.

(** C9: for every request that passes validation with [include_audio],
    the audio chain below its tempo step is the [Concat] of the forward
    audio and its [areverse], and the audio chain holds no [xfade] node;
    this is so also when [fade_duration > 0] and the video chain joins
    with one [xfade] node.  The audio chain is the second stream handed
    to the engine. *)
Theorem audio_joined_by_concat (a : Args) :
  valid a -> include_audio a = true ->
  below "atempo" (final_audio a)
  = Concat [Select (input_stream a) "a";
            Filter [Select (input_stream a) "a"] "areverse" [] []]
           [("v", AInt 0); ("a", AInt 1)] /\
  count_filter "xfade" (final_audio a) = 0 /\
  (Py.gt (fade_duration a) 0 = true -> is_nan (duration a) = false ->
   count_filter "xfade" (joined_video a) = 1 /\
   count_filter "xfade" (final_audio a) = 0) /\
  (forall env codec, snd (vcodec env a) = Ok codec ->
   exists v kw,
     plan_of (fst (create_boomerang env a)) = Some ([v; final_audio a], kw)).
Proof.
  intros Hv Ha. split; [| split; [| split]].
  - rewrite below_atempo_final_audio. reflexivity.
  - apply count_xfade_final_audio.
  - intros Hpos Hd. split; [| apply count_xfade_final_audio].
    rewrite (joined_video_xfade a Hv Hpos Hd). reflexivity.
  - intros env codec Hc. exact (plan_with_audio env a codec Hv Ha Hc).
Qed.

Lemma audio_joined_by_concat_witness :
  valid smooth_fast_request /\
  include_audio smooth_fast_request = true /\
  count_filter "xfade" (joined_video smooth_fast_request) = 1 /\
  count_filter "xfade" (final_audio smooth_fast_request) = 0.
Proof.
  assert (Hv : valid smooth_fast_request) by reflexivity.
  assert (Ha : include_audio smooth_fast_request = true) by reflexivity.
  destruct (audio_joined_by_concat smooth_fast_request Hv Ha)
    as (_ & _ & H & _).
  split; [exact Hv |]. split; [exact Ha |].
  apply H; reflexivity.
Defined.

(** C10: for every request that passes validation with [include_audio]:
    a speed equal to [1.0] leaves the audio chain without [atempo] node; a
    speed different from [1.0] puts exactly one [atempo] node on top of
    the joined audio, with the requested speed as its only argument.  The
    validation accepts every speed above [100.0] (the other arguments
    unchanged), and the chain still has that single node. *)
Theorem tempo_is_one_node (a : Args) :
  valid a -> include_audio a = true ->
  ((speed a =? 1)%float = true ->
   final_audio a = joined_audio a /\
   count_filter "atempo" (final_audio a) = 0) /\
  (Py.ne (speed a) 1 = true ->
   final_audio a = Filter [joined_audio a] "atempo" [AFloat (speed a)] [] /\
   count_filter "atempo" (final_audio a) = 1) /\
  (forall s, (100 <? s)%float = true ->
   valid (with_speed a s) /\
   final_audio (with_speed a s)
   = Filter [joined_audio (with_speed a s)] "atempo" [AFloat s] [] /\
   count_filter "atempo" (final_audio (with_speed a s)) = 1) /\
  (forall env codec, snd (vcodec env a) = Ok codec ->
   exists v kw,
     plan_of (fst (create_boomerang env a)) = Some ([v; final_audio a], kw)).
Proof.
  intros Hv Ha. split; [| split; [| split]].
  - intros E. unfold final_audio, Py.ne. rewrite E. split; reflexivity.
  - intros E. unfold final_audio. rewrite E. split; reflexivity.
  - intros s Hs.
    assert (Hn : Py.ne s 1 = true).
    { unfold Py.ne. rewrite (above_hundred_not_one s Hs). reflexivity. }
    split; [| split].
    + apply valid_inv in Hv. apply valid_inv. simpl.
      destruct Hv as (H1 & H2 & _ & H4 & H5 & H6).
      repeat split; try assumption; try lia.
      apply (above_positive_not_le_zero 100 s); [reflexivity | exact Hs].
    + unfold final_audio. simpl. rewrite Hn. reflexivity.
    + unfold final_audio. simpl. rewrite Hn. reflexivity.
  - intros env codec Hc. exact (plan_with_audio env a codec Hv Ha Hc).
Qed.

Lemma tempo_is_one_node_witness :
  valid smooth_fast_request /\
  include_audio smooth_fast_request = true /\
  final_audio (with_speed smooth_fast_request 250)
  = Filter [joined_audio (with_speed smooth_fast_request 250)] "atempo"
           [AFloat 250] [].
Proof.
  assert (Hv : valid smooth_fast_request) by reflexivity.
  assert (Ha : include_audio smooth_fast_request = true) by reflexivity.
  destruct (tempo_is_one_node smooth_fast_request Hv Ha) as (_ & _ & H & _).
  split; [exact Hv |]. split; [exact Ha |].
  apply (H 250%float). reflexivity.
Defined.

(** ** How a call proceeds and ends *)

Lemma input_validation_cases (a : Args) :
  valid a \/ exists msg, input_validation a = raise (ValueError msg).
Proof.
  unfold valid, input_validation.
  repeat match goal with
         | |- context [if ?b then _ else _] => destruct b
         end; eauto.
Qed.

(** The video stream of a valid request. *)
Lemma create_boomerang_valid (env : Env) (a : Args) :
  valid a ->
  create_boomerang env a
  = let '(outs, kw) :=
      audio_processing a
        [Filter [joined_video a] "setpts" [AFmt (1 / speed a)%float "*PTS"] []]
        (kwargs a) in
    match vcodec env a with
    | (t, Ok c) =>
        (t ++ [FfmpegRun outs (output_file a)
                         (dict_set kw "vcodec" (AStr c)) true (quiet a)],
         match ffmpeg_run env with
         | Ok _ => Returns
         | Raise _ => SysExit 1
         end)
    | (t, Raise _) => (t, SysExit 1)
    end.
Proof.
  intros Hv. unfold create_boomerang. rewrite Hv. unfold ret at 1.
  unfold try_body. rewrite (final_video_valid a Hv).
  unfold ret at 1. cbn [bind].
  destruct (audio_processing a _ (kwargs a)) as [outs kw].
  destruct (vcodec env a) as [t [c | e]]; cbn [bind app].
  - destruct (ffmpeg_run env); reflexivity.
  - reflexivity.
Qed.

Lemma vcodec_probe_trace (env : Env) (a : Args) :
  fst (vcodec env a)
  = if use_gpu a && (String.eqb (system env) "Windows"
                     || String.eqb (system env) "Linux")
    then [SubprocessRun ["nvidia-smi"] 5] else [].
Proof.
  unfold vcodec, codec_to_use, windows_codec, linux_codec, subprocess_run.
  destruct (use_gpu a); [| reflexivity]. cbn [andb].
  destruct (String.eqb (system env) "Darwin") eqn:D.
  { apply String.eqb_eq in D. rewrite D. reflexivity. }
  destruct (String.eqb (system env) "Windows"); cbn [orb];
    [| destruct (String.eqb (system env) "Linux"); [| reflexivity]];
    destruct (nvidia_smi env) as [rc | e]; simpl;
    try (destruct (rc =? 0)%Z; reflexivity);
    destruct e; reflexivity.
Qed.

Lemma probing_system (env : Env) :
  String.eqb (system env) "Windows" || String.eqb (system env) "Linux" = true
  <-> system env = "Windows" \/ system env = "Linux".
Proof.
  rewrite orb_true_iff, !String.eqb_eq. reflexivity.
Qed.

(** X1: with [use_gpu] set on a system that is neither macOS, Windows nor
    Linux, no branch assigns a codec: the encoder is [libx264], and the
    probe is not run. *)
Theorem unknown_system_uses_cpu_encoder (env : Env) (a : Args) :
  use_gpu a = true ->
  system env <> "Darwin" -> system env <> "Windows" ->
  system env <> "Linux" ->
  vcodec env a = ([], Ok "libx264") /\
  probe_runs (fst (create_boomerang env a)) = 0.
Proof.
  intros Hg Hd Hw Hl.
  apply String.eqb_neq in Hd, Hw, Hl.
  assert (E : vcodec env a = ([], Ok "libx264")).
  { unfold vcodec, codec_to_use. rewrite Hg, Hd, Hw, Hl. reflexivity. }
  split; [exact E |].
  pose proof (create_boomerang_probe_runs env a) as H.
  rewrite E in H. simpl in H. lia.
Qed.

Lemma unknown_system_uses_cpu_encoder_witness :
  vcodec (mkEnv "FreeBSD" (Ok 0%Z) (Ok tt)) smooth_fast_request
  = ([], Ok "libx264").
Proof.
  apply (unknown_system_uses_cpu_encoder
           (mkEnv "FreeBSD" (Ok 0%Z) (Ok tt)) smooth_fast_request);
    [reflexivity | discriminate | discriminate | discriminate].
Defined.

(** The encoder choice as a table. *)
Lemma vcodec_result (env : Env) (a : Args) :
  snd (vcodec env a)
  = if use_gpu a then
      if String.eqb (system env) "Darwin" then Ok "h264_videotoolbox"
      else if String.eqb (system env) "Windows"
              || String.eqb (system env) "Linux" then
        match nvidia_smi env with
        | Ok rc => if (rc =? 0)%Z then Ok "h264_nvenc" else Ok "h264_qsv"
        | Raise e => if probe_handled e then Ok "h264_qsv" else Raise e
        end
      else Ok "libx264"
    else Ok "libx264".
Proof.
  unfold vcodec, codec_to_use, windows_codec, linux_codec, subprocess_run.
  destruct (use_gpu a); [| reflexivity].
  destruct (String.eqb (system env) "Darwin"); [reflexivity |].
  destruct (String.eqb (system env) "Windows"); cbn [orb];
    [| destruct (String.eqb (system env) "Linux"); [| reflexivity]];
    destruct (nvidia_smi env) as [rc | e]; simpl;
    try (destruct (rc =? 0)%Z; reflexivity);
    destruct e; reflexivity.
Qed.

(** X4: a codec the encoder choice returns is one of [libx264],
    [h264_nvenc], [h264_videotoolbox] and [h264_qsv]; a hardware encoder
    is returned only when [use_gpu] is set and the system is macOS,
    Windows or Linux. *)
Theorem chosen_codec_is_known (env : Env) (a : Args) (c : string) :
  snd (vcodec env a) = Ok c ->
  (c = "libx264" \/ c = "h264_nvenc" \/
   c = "h264_videotoolbox" \/ c = "h264_qsv") /\
  (is_hardware_accelerated c = true ->
   use_gpu a = true /\
   (system env = "Darwin" \/ system env = "Windows" \/
    system env = "Linux")).
Proof.
  rewrite vcodec_result.
  destruct (use_gpu a).
  - destruct (String.eqb (system env) "Darwin") eqn:D.
    { apply String.eqb_eq in D. intros E. injection E as <-. auto 6. }
    destruct (String.eqb (system env) "Windows"
              || String.eqb (system env) "Linux") eqn:P.
    + apply probing_system in P.
      assert (Hs : true = true /\
                   (system env = "Darwin" \/ system env = "Windows" \/
                    system env = "Linux")) by (destruct P; auto).
      destruct (nvidia_smi env) as [rc | e].
      * destruct (rc =? 0)%Z; intros E; injection E as <-; auto 6.
      * destruct (probe_handled e); intros E; [| discriminate E].
        injection E as <-. auto 6.
    + intros E. injection E as <-. split; [auto |]. discriminate.
  - intros E. injection E as <-. split; [auto |]. discriminate.
Qed.

Lemma chosen_codec_is_known_witness :
  snd (vcodec (mkEnv "Windows" (Raise TimeoutExpired) (Ok tt))
              smooth_fast_request) = Ok "h264_qsv" /\
  use_gpu smooth_fast_request = true.
Proof.
  assert (E : snd (vcodec (mkEnv "Windows" (Raise TimeoutExpired) (Ok tt))
                          smooth_fast_request) = Ok "h264_qsv")
    by reflexivity.
  split; [exact E |].
  apply (chosen_codec_is_known _ _ _ E). reflexivity.
Defined.

(** X5: the encoder choice raises only in one way: [use_gpu] is set, the
    system is Windows or Linux, and the run of [nvidia-smi] raised an
    exception that is neither [FileNotFoundError] nor [TimeoutExpired];
    that exception is the one raised.  In particular the look-ups in
    [HW_ACCEL_CODECS] never fail. *)
Theorem encoder_choice_raises_only_unnamed_probe_error
  (env : Env) (a : Args) (e : exn) :
  snd (vcodec env a) = Raise e ->
  use_gpu a = true /\
  (system env = "Windows" \/ system env = "Linux") /\
  nvidia_smi env = Raise e /\
  probe_handled e = false.
Proof.
  rewrite vcodec_result.
  destruct (use_gpu a); [| discriminate].
  destruct (String.eqb (system env) "Darwin"); [discriminate |].
  destruct (String.eqb (system env) "Windows"
            || String.eqb (system env) "Linux") eqn:P; [| discriminate].
  apply probing_system in P.
  destruct (nvidia_smi env) as [rc | e'].
  - destruct (rc =? 0)%Z; discriminate.
  - destruct (probe_handled e') eqn:Hh; [discriminate |].
    intros E. injection E as <-. auto.
Qed.

Lemma encoder_choice_raises_only_unnamed_probe_error_witness :
  snd (vcodec (mkEnv "Linux" (Raise (OtherError "PermissionError")) (Ok tt))
              smooth_fast_request)
  = Raise (OtherError "PermissionError") /\
  probe_handled (OtherError "PermissionError") = false.
Proof.
  assert (E : snd (vcodec (mkEnv "Linux"
                             (Raise (OtherError "PermissionError")) (Ok tt))
                          smooth_fast_request)
              = Raise (OtherError "PermissionError")) by reflexivity.
  split; [exact E |].
  apply (encoder_choice_raises_only_unnamed_probe_error _ _ _ E).
Defined.

(** X7: the trace of a call is an optional run of
    [nvidia-smi] (with the 5 second timeout) followed by an optional run
    of ffmpeg; ffmpeg is run at most once, last, on the output file of the
    request, with [overwrite_output=True] and the [quiet] flag of the
    request. *)
Theorem probe_then_engine (env : Env) (a : Args) :
  exists probes runs,
    fst (create_boomerang env a) = probes ++ runs /\
    (probes = [] \/ probes = [SubprocessRun ["nvidia-smi"] 5]) /\
    (runs = [] \/
     exists outs kw,
       runs = [FfmpegRun outs (output_file a) kw true (quiet a)]).
Proof.
  destruct (input_validation_cases a) as [Hv | [msg Hm]].
  - rewrite (create_boomerang_valid env a Hv).
    destruct (audio_processing a _ (kwargs a)) as [outs kw].
    pose proof (vcodec_probe_trace env a) as Ht.
    destruct (vcodec env a) as [t [c | e]]; cbn [fst] in *.
    + exists t. eexists. split; [reflexivity |]. split.
      * rewrite Ht. destruct (_ && _); auto.
      * right. eauto.
    + exists t, []. rewrite app_nil_r. split; [reflexivity |]. split.
      * rewrite Ht. destruct (_ && _); auto.
      * left; reflexivity.
  - exists [], []. unfold create_boomerang. rewrite Hm. simpl. auto.
Qed.

(** ** What is handed to the engine *)

Lemma plan_of_probe_only (t : list event) :
  t = [] \/ t = [SubprocessRun ["nvidia-smi"] 5] -> plan_of t = None.
Proof. intros [-> | ->]; reflexivity. Qed.

Lemma vcodec_trace_cases (env : Env) (a : Args) :
  fst (vcodec env a) = [] \/
  fst (vcodec env a) = [SubprocessRun ["nvidia-smi"] 5].
Proof. rewrite vcodec_probe_trace. destruct (_ && _); auto. Qed.

(** A plan exists only for a valid request whose encoder choice
    completed, and it is then this one. *)
Lemma plan_inv (env : Env) (a : Args) (outs : list stream) (kw : dict) :
  plan_of (fst (create_boomerang env a)) = Some (outs, kw) ->
  valid a /\
  exists c,
    snd (vcodec env a) = Ok c /\
    outs = Filter [joined_video a] "setpts"
                  [AFmt (1 / speed a)%float "*PTS"] []
           :: (if include_audio a then [final_audio a] else []) /\
    kw = dict_set (if include_audio a then kwargs a
                   else dict_set (kwargs a) "an" ANone)
                  "vcodec" (AStr c).
Proof.
  intros H.
  destruct (input_validation_cases a) as [Hv | [msg Hm]].
  - split; [exact Hv |].
    destruct (snd (vcodec env a)) as [c | e] eqn:Hc.
    + exists c. split; [reflexivity |].
      rewrite (create_boomerang_plan env a c Hv Hc) in H.
      unfold audio_processing in H.
      destruct (include_audio a); injection H as <- <-; auto.
    + exfalso. rewrite (create_boomerang_valid env a Hv) in H.
      destruct (audio_processing a _ (kwargs a)) as [outs' kw'].
      pose proof (vcodec_trace_cases env a) as Ht.
      destruct (vcodec env a) as [t r]. cbn [fst snd] in *. subst r.
      cbn [fst] in H. rewrite (plan_of_probe_only t Ht) in H.
      discriminate H.
  - unfold create_boomerang in H. rewrite Hm in H. discriminate H.
Qed.

(** X8: every plan handed to ffmpeg carries the [preset] and the [crf] of
    the request unchanged, the pixel format [yuv420p], and the codec the
    encoder choice returned; its options are these four, in this order,
    with [an] before the codec exactly when audio is not included. *)
Theorem plan_options
  (env : Env) (a : Args) (outs : list stream) (kw : dict) :
  plan_of (fst (create_boomerang env a)) = Some (outs, kw) ->
  dict_get kw "preset" = Some (AStr (preset a)) /\
  dict_get kw "crf" = Some (AInt (crf a)) /\
  dict_get kw "pix_fmt" = Some (AStr "yuv420p") /\
  (exists c, dict_get kw "vcodec" = Some (AStr c) /\
             snd (vcodec env a) = Ok c) /\
  map fst kw
  = ["preset"; "crf"; "pix_fmt"]
    ++ (if include_audio a then [] else ["an"]) ++ ["vcodec"].
Proof.
  intros H. destruct (plan_inv env a outs kw H) as (_ & c & Hc & _ & ->).
  destruct (include_audio a); repeat split; try reflexivity;
    exists c; (split; [reflexivity | exact Hc]).
Qed.

Lemma plan_options_witness :
  plan_of (fst (create_boomerang linux_without_gpu smooth_fast_request))
  = Some ([Filter [joined_video smooth_fast_request] "setpts"
                  [AFmt 0.5 "*PTS"] [];
           final_audio smooth_fast_request],
          [("preset", AStr "slow"); ("crf", AInt 18);
           ("pix_fmt", AStr "yuv420p"); ("vcodec", AStr "h264_qsv")]) /\
  dict_get [("preset", AStr "slow"); ("crf", AInt 18);
            ("pix_fmt", AStr "yuv420p"); ("vcodec", AStr "h264_qsv")]
           "pix_fmt" = Some (AStr "yuv420p").
Proof.
  assert (E : plan_of (fst (create_boomerang linux_without_gpu
                                             smooth_fast_request))
              = Some ([Filter [joined_video smooth_fast_request] "setpts"
                              [AFmt 0.5 "*PTS"] [];
                       final_audio smooth_fast_request],
                      [("preset", AStr "slow"); ("crf", AInt 18);
                       ("pix_fmt", AStr "yuv420p");
                       ("vcodec", AStr "h264_qsv")])) by reflexivity.
  split; [exact E |].
  apply (plan_options _ _ _ _ E).
Defined.

(** X9: the audio flag decides the shape of the plan.  With
    [include_audio] the plan has two streams, the video chain and the
    audio chain, and no [an] option; without it the plan has the video
    chain alone, which holds no audio filter, and the option [an] is set
    to [None]. *)
Theorem audio_flag_decides_plan
  (env : Env) (a : Args) (outs : list stream) (kw : dict) :
  plan_of (fst (create_boomerang env a)) = Some (outs, kw) ->
  (include_audio a = true ->
   (exists v, outs = [v; final_audio a]) /\ dict_get kw "an" = None) /\
  (include_audio a = false ->
   (exists v, outs = [v] /\
              count_filter "areverse" v = 0 /\
              count_filter "atempo" v = 0) /\
   dict_get kw "an" = Some ANone).
Proof.
  intros H. destruct (plan_inv env a outs kw H) as (_ & c & _ & -> & ->).
  split; intros Ha; rewrite Ha.
  - split; [eauto | reflexivity].
  - split; [| reflexivity].
    eexists. split; [reflexivity |].
    unfold joined_video.
    destruct (Py.gt (fade_duration a) 0
              && Py.gt (duration a) (fade_duration a)); split; reflexivity.
Qed.

Lemma audio_flag_decides_plan_witness :
  plan_of (fst (create_boomerang (mkEnv "Linux" (Ok 0%Z) (Ok tt))
                                 default_args))
  = Some ([Filter [joined_video default_args] "setpts"
                  [AFmt 1 "*PTS"] []],
          [("preset", AStr "medium"); ("crf", AInt 23);
           ("pix_fmt", AStr "yuv420p"); ("an", ANone);
           ("vcodec", AStr "libx264")]) /\
  dict_get [("preset", AStr "medium"); ("crf", AInt 23);
            ("pix_fmt", AStr "yuv420p"); ("an", ANone);
            ("vcodec", AStr "libx264")] "an" = Some ANone.
Proof.
  assert (E : plan_of (fst (create_boomerang
                              (mkEnv "Linux" (Ok 0%Z) (Ok tt))
                              default_args))
              = Some ([Filter [joined_video default_args] "setpts"
                              [AFmt 1 "*PTS"] []],
                      [("preset", AStr "medium"); ("crf", AInt 23);
                       ("pix_fmt", AStr "yuv420p"); ("an", ANone);
                       ("vcodec", AStr "libx264")])) by reflexivity.
  split; [exact E |].
  destruct (audio_flag_decides_plan _ _ _ _ E) as [_ H].
  apply H. reflexivity.
Defined.

Lemma sources_joined_video (a : Args) :
  sources (joined_video a) = [input_stream a; input_stream a].
Proof.
  unfold joined_video.
  destruct (Py.gt (fade_duration a) 0
            && Py.gt (duration a) (fade_duration a)); reflexivity.
Qed.

Lemma sources_final_audio (a : Args) :
  sources (final_audio a) = [input_stream a; input_stream a].
Proof. unfold final_audio. destruct (Py.ne (speed a) 1); reflexivity. Qed.

(** X10: every stream handed to ffmpeg is built from one input only: the
    input file of the request, opened with [ss = start_time] and
    [t = duration].  The forward and the reversed branch of a chain, and
    the video and the audio chain, read the same trimmed segment. *)
Theorem streams_read_the_trimmed_input
  (env : Env) (a : Args) (outs : list stream) (kw : dict) :
  plan_of (fst (create_boomerang env a)) = Some (outs, kw) ->
  forall s src, In s outs -> In src (sources s) ->
  src = Input (input_file a)
              [("ss", AFloat (start_time a)); ("t", AFloat (duration a))].
Proof.
  intros H s src Hs Hsrc.
  destruct (plan_inv env a outs kw H) as (_ & c & _ & -> & _).
  assert (Hv : forall x,
             In x (sources (Filter [joined_video a] "setpts"
                                   [AFmt (1 / speed a)%float "*PTS"] [])) ->
             x = input_stream a).
  { intros x. cbn [sources flat_map]. rewrite app_nil_r, sources_joined_video.
    simpl. intuition. }
  assert (Ha : forall x, In x (sources (final_audio a)) -> x = input_stream a).
  { intros x. rewrite sources_final_audio. simpl. intuition. }
  destruct (include_audio a); simpl in Hs.
  - destruct Hs as [<- | [<- | []]]; [apply Hv | apply Ha]; exact Hsrc.
  - destruct Hs as [<- | []]. apply Hv. exact Hsrc.
Qed.

Lemma streams_read_the_trimmed_input_witness :
  hd (Input "" []) (sources (final_audio smooth_fast_request))
  = Input "in.mp4" [("ss", AFloat 0); ("t", AFloat 3)].
Proof.
  assert (E : plan_of (fst (create_boomerang linux_without_gpu
                                             smooth_fast_request))
              = Some ([Filter [joined_video smooth_fast_request] "setpts"
                              [AFmt 0.5 "*PTS"] [];
                       final_audio smooth_fast_request],
                      [("preset", AStr "slow"); ("crf", AInt 18);
                       ("pix_fmt", AStr "yuv420p");
                       ("vcodec", AStr "h264_qsv")])) by reflexivity.
  exact (streams_read_the_trimmed_input _ _ _ _ E
           (final_audio smooth_fast_request) _
           (or_intror (or_introl eq_refl)) (or_introl eq_refl)).
Defined.

(** X11: the two chains keep to their own filters.  A video chain that is
    built holds exactly one [reverse] and one [setpts] node, at most one
    [xfade], and no [areverse] or [atempo]; the audio chain holds exactly
    one [areverse], at most one [atempo], and no [reverse], [xfade] or
    [setpts]. *)
Theorem chains_keep_to_their_filters (a : Args) (v : stream) :
  snd (final_video a) = Ok v ->
  (count_filter "reverse" v = 1 /\ count_filter "setpts" v = 1 /\
   count_filter "xfade" v <= 1 /\
   count_filter "areverse" v = 0 /\ count_filter "atempo" v = 0) /\
  (count_filter "areverse" (final_audio a) = 1 /\
   count_filter "atempo" (final_audio a) <= 1 /\
   count_filter "reverse" (final_audio a) = 0 /\
   count_filter "xfade" (final_audio a) = 0 /\
   count_filter "setpts" (final_audio a) = 0).
Proof.
  intros H. split.
  - unfold final_video, Py.truediv in H.
    destruct (speed a =? 0)%float; [discriminate H |].
    injection H as <-. unfold joined_video.
    destruct (Py.gt (fade_duration a) 0
              && Py.gt (duration a) (fade_duration a));
      repeat split; simpl; lia.
  - unfold final_audio. destruct (Py.ne (speed a) 1);
      repeat split; simpl; lia.
Qed.

Lemma chains_keep_to_their_filters_witness :
  count_filter "xfade"
    (Filter [joined_video smooth_fast_request] "setpts" [AFmt 0.5 "*PTS"] [])
  <= 1.
Proof.
  apply (chains_keep_to_their_filters smooth_fast_request
           (Filter [joined_video smooth_fast_request] "setpts"
                   [AFmt 0.5 "*PTS"] [])
           eq_refl).
Defined.

(** ** The output directory and the command line *)

Lemma create_boomerang_io_invalid (h : Host) (a : Args) :
  ~ valid a ->
  exists msg, create_boomerang_io h a = ([], Raises (ValueError msg)).
Proof.
  intros Hn. destruct (input_validation_cases a) as [Hv | [msg Hm]];
    [contradiction |].
  exists msg. unfold create_boomerang_io. rewrite Hm. reflexivity.
Qed.

Lemma create_boomerang_io_valid (h : Host) (a : Args) :
  valid a ->
  create_boomerang_io h a
  = match output_directory h a with
    | (d, Raise e) => (d, Raises e)
    | (d, Ok _) =>
        (d ++ map Run (fst (create_boomerang (env h) a)),
         snd (create_boomerang (env h) a))
    end.
Proof.
  intros Hv. unfold create_boomerang_io, create_boomerang.
  rewrite Hv. unfold ret. cbn [map app].
  destruct (output_directory h a) as [d [u | e]]; [| reflexivity].
  destruct (try_body (env h) a) as [t [u' | e]]; reflexivity.
Qed.

Lemma output_directory_cases (h : Host) (a : Args) :
  output_directory h a = ([], Ok tt) \/
  (fst (output_directory h a) = [Makedirs (dirname h (output_file a))] /\
   dirname h (output_file a) <> "" /\
   path_exists h (dirname h (output_file a)) = false).
Proof.
  unfold output_directory.
  destruct (String.eqb (dirname h (output_file a)) "") eqn:E; simpl;
    [left; reflexivity |].
  destruct (path_exists h (dirname h (output_file a))); simpl;
    [left; reflexivity |].
  right. apply String.eqb_neq in E. auto.
Qed.

Lemma run_events_map_Run (t : list event) : run_events (map Run t) = t.
Proof. induction t as [| e t IH]; simpl; [| rewrite IH]; reflexivity. Qed.

Lemma Makedirs_not_in_runs (dir : string) (t : list event) :
  ~ In (Makedirs dir) (map Run t).
Proof.
  intros H. apply in_map_iff in H. destruct H as (e & He & _).
  discriminate He.
Qed.

(** An ffmpeg run in a trace is on the output file of the request. *)
Lemma engine_run_inv (env : Env) (a : Args)
  (outs : list stream) (f : string) (kw : dict) (ov q : bool) :
  In (FfmpegRun outs f kw ov q) (fst (create_boomerang env a)) ->
  f = output_file a /\ ov = true /\ q = quiet a.
Proof.
  destruct (input_validation_cases a) as [Hv | [msg Hm]].
  - rewrite (create_boomerang_valid env a Hv).
    destruct (audio_processing a _ (kwargs a)) as [outs' kw'].
    pose proof (vcodec_trace_cases env a) as Ht.
    destruct (vcodec env a) as [t [c | e]]; cbn [fst] in *; intros H.
    + apply in_app_or in H. destruct H as [H | [H | []]].
      * destruct Ht as [-> | ->]; simpl in H; intuition discriminate.
      * injection H as _ <- _ <- <-. auto.
    + destruct Ht as [-> | ->]; simpl in H; intuition discriminate.
  - unfold create_boomerang. rewrite Hm. simpl. intros [].
Qed.

Lemma append_inv_head (p x y : string) :
  (p ++ x)%string = (p ++ y)%string -> x = y.
Proof.
  induction p as [| c p IH]; simpl; intros H; [exact H |].
  injection H as H. exact (IH H).
Qed.

Lemma append_empty_right (p : string) : (p ++ "")%string = p.
Proof. induction p as [| c p IH]; simpl; [| rewrite IH]; reflexivity. Qed.

Lemma bare_splitext_contract (e : Env) :
  splitext_contract (splitext (bare_host e)).
Proof.
  intros p. simpl. destruct (String.eqb p "in.mp4") eqn:E; simpl.
  - apply String.eqb_eq in E. subst p. split; [reflexivity |].
    right. eexists. reflexivity.
  - split; [apply append_empty_right | left; reflexivity].
Qed.

(** X12: the output directory is created at most once, before any probe
    or ffmpeg run, and only for a request that passes validation whose
    output path has a directory part that does not exist yet.  When
    [os.makedirs] raises, the exception leaves the function and nothing
    is probed or run. *)
Theorem output_directory_is_created_first (h : Host) (a : Args) :
  (forall dir, In (Makedirs dir) (fst (create_boomerang_io h a)) ->
   valid a /\ dir = dirname h (output_file a) /\
   dir <> "" /\ path_exists h dir = false) /\
  (exists d t,
     fst (create_boomerang_io h a) = d ++ map Run t /\
     (d = [] \/ d = [Makedirs (dirname h (output_file a))])) /\
  (forall e, valid a -> snd (output_directory h a) = Raise e ->
   create_boomerang_io h a
   = ([Makedirs (dirname h (output_file a))], Raises e)).
Proof.
  destruct (input_validation_cases a) as [Hv | [msg Hm]].
  - rewrite (create_boomerang_io_valid h a Hv).
    destruct (output_directory_cases h a) as [E | (E & Hne & Hex)].
    + rewrite E. cbn [fst snd app]. split; [| split].
      * intros dir H. exfalso. exact (Makedirs_not_in_runs _ _ H).
      * exists [], (fst (create_boomerang (env h) a)). auto.
      * intros e _ He. discriminate He.
    + destruct (output_directory h a) as [d r]. cbn [fst snd] in *. subst d.
      split; [| split].
      * intros dir H.
        assert (Hin : In (Makedirs dir)
                         (Makedirs (dirname h (output_file a))
                          :: map Run (match r with
                                      | Ok _ => fst (create_boomerang (env h) a)
                                      | Raise _ => []
                                      end))).
        { destruct r; exact H. }
        destruct Hin as [Hd | Hd].
        -- injection Hd as <-. auto.
        -- exfalso. exact (Makedirs_not_in_runs _ _ Hd).
      * destruct r as [u | e].
        -- exists [Makedirs (dirname h (output_file a))],
                  (fst (create_boomerang (env h) a)). auto.
        -- exists [Makedirs (dirname h (output_file a))], []. auto.
      * intros e _ He. subst r. reflexivity.
  - assert (Hn : ~ valid a) by (unfold valid; rewrite Hm; discriminate).
    unfold create_boomerang_io. rewrite Hm. cbn [fst snd map raise].
    split; [| split].
    + intros dir [].
    + exists [], []. auto.
    + intros e Hv. contradiction.
Qed.

(** X14: [main] lets ffmpeg run only when the input file exists, the
    arguments pass validation and the output directory step did not
    raise; the plan is then the one of [create_boomerang] on the parsed
    arguments. *)
Theorem main_runs_engine_only_for_existing_valid_input
  (h : Host) (ns : Cli.Namespace) (outs : list stream) (kw : dict) :
  plan_of (run_events (fst (main h ns))) = Some (outs, kw) ->
  path_exists h (Cli.input_file ns) = true /\
  valid (vars h ns) /\
  (forall e, snd (output_directory h (vars h ns)) <> Raise e) /\
  plan_of (fst (create_boomerang (env h) (vars h ns))) = Some (outs, kw).
Proof.
  unfold main.
  destruct (path_exists h (Cli.input_file ns)); cbn [negb];
    [| discriminate].
  intros H. split; [reflexivity |].
  destruct (input_validation_cases (vars h ns)) as [Hv | [msg Hm]].
  - split; [exact Hv |].
    rewrite (create_boomerang_io_valid h _ Hv) in H.
    destruct (output_directory_cases h (vars h ns)) as [E | (E & _)].
    + rewrite E in *. cbn [fst snd app] in *.
      rewrite run_events_map_Run in H. split; [discriminate | exact H].
    + destruct (output_directory h (vars h ns)) as [d [u | e]];
        cbn [fst snd] in *; subst d.
      * cbn [fst app run_events] in H. rewrite run_events_map_Run in H.
        split; [discriminate | exact H].
      * discriminate H.
  - unfold create_boomerang_io in H. rewrite Hm in H. discriminate H.
Qed.

Lemma main_runs_engine_only_for_existing_valid_input_witness :
  plan_of (run_events (fst (main (bare_host linux_without_gpu)
                                 (default_namespace "in.mp4"))))
  = Some ([Filter [joined_video default_args] "setpts" [AFmt 1 "*PTS"] []],
          [("preset", AStr "medium"); ("crf", AInt 23);
           ("pix_fmt", AStr "yuv420p"); ("an", ANone);
           ("vcodec", AStr "libx264")]) /\
  path_exists (bare_host linux_without_gpu) "in.mp4" = true.
Proof.
  assert (E : plan_of (run_events (fst (main (bare_host linux_without_gpu)
                                             (default_namespace "in.mp4"))))
              = Some ([Filter [joined_video default_args] "setpts"
                              [AFmt 1 "*PTS"] []],
                      [("preset", AStr "medium"); ("crf", AInt 23);
                       ("pix_fmt", AStr "yuv420p"); ("an", ANone);
                       ("vcodec", AStr "libx264")])) by reflexivity.
  split; [exact E |].
  apply (main_runs_engine_only_for_existing_valid_input _ _ _ _ E).
Defined.

(** X15: when [-o] is not given, the output path is the input path
    without its extension followed by [_boomerang.mp4]; provided
    [os.path.splitext] keeps its documented contract it differs from the
    input path, so no ffmpeg run started by [main] (they overwrite their
    output) writes to the input file. *)
Theorem default_output_is_not_the_input (h : Host) (ns : Cli.Namespace) :
  splitext_contract (splitext h) ->
  Cli.output_file ns = None ->
  default_output h ns
  = (fst (splitext h (Cli.input_file ns)) ++ "_boomerang.mp4")%string /\
  default_output h ns <> Cli.input_file ns /\
  (forall outs f kw ov q,
     In (Run (FfmpegRun outs f kw ov q)) (fst (main h ns)) ->
     f <> Cli.input_file ns /\ ov = true).
Proof.
  intros Hc Ho.
  assert (E : default_output h ns
              = (fst (splitext h (Cli.input_file ns))
                 ++ "_boomerang.mp4")%string).
  { unfold default_output. rewrite Ho.
    destruct (splitext h (Cli.input_file ns)); reflexivity. }
  assert (Hne : default_output h ns <> Cli.input_file ns).
  { rewrite E. destruct (Hc (Cli.input_file ns)) as [Hp Hx].
    intros Heq. rewrite <- Hp in Heq at 2.
    apply append_inv_head in Heq.
    destruct Hx as [Hx | [r Hx]]; rewrite Hx in Heq; discriminate Heq. }
  split; [exact E |]. split; [exact Hne |].
  intros outs f kw ov q. unfold main.
  destruct (path_exists h (Cli.input_file ns)); cbn [negb fst];
    [| intros []].
  intros H.
  assert (Hin : In (FfmpegRun outs f kw ov q)
                   (fst (create_boomerang (env h) (vars h ns)))).
  { destruct (input_validation_cases (vars h ns)) as [Hv | [msg Hm]].
    - rewrite (create_boomerang_io_valid h _ Hv) in H.
      destruct (output_directory h (vars h ns)) as [d [u | e]] eqn:Ed;
        cbn [fst] in H.
      + apply in_app_or in H. destruct H as [H | H].
        * exfalso.
          destruct (output_directory_cases h (vars h ns)) as [E' | (E' & _)];
            rewrite Ed in E'; cbn [fst] in E'.
          -- injection E' as ->. destruct H.
          -- subst d. destruct H as [H | []]. discriminate H.
        * apply in_map_iff in H. destruct H as (ev & Hev & Hin).
          injection Hev as ->. exact Hin.
      + exfalso.
        destruct (output_directory_cases h (vars h ns)) as [E' | (E' & _)];
          rewrite Ed in E'; cbn [fst] in E'.
        * discriminate E'.
        * subst d. destruct H as [H | []]. discriminate H.
    - exfalso. unfold create_boomerang_io in H. rewrite Hm in H.
      destruct H. }
  apply engine_run_inv in Hin. destruct Hin as (-> & -> & _).
  split; [exact Hne | reflexivity].
Qed.

Lemma default_output_is_not_the_input_witness :
  default_output (bare_host linux_without_gpu) (default_namespace "in.mp4")
  = "in_boomerang.mp4".
Proof.
  apply (default_output_is_not_the_input
           (bare_host linux_without_gpu) (default_namespace "in.mp4")
           (bare_splitext_contract linux_without_gpu) eq_refl).
Defined.

(** ** Further facts on the validation and the speed factor *)

Lemma rounded_not_negative (m e : Z) (l : location) :
  SFltb (binary_round_aux prec emax false m e l) (S754_zero false) = false.
Proof.
  unfold binary_round_aux.
  destruct (shr_fexp prec emax m e l) as [mrs e'].
  destruct (shr_fexp prec emax _ e' loc_Exact) as [mrs' e''].
  destruct (shr_m mrs'); [reflexivity | | reflexivity].
  destruct (e'' <=? emax - prec)%Z; reflexivity.
Qed.

Lemma one_over_positive_not_negative (s : float) :
  (s <=? 0)%float = false -> (1 / s <? 0)%float = false.
Proof.
  rewrite FloatAxioms.leb_spec, FloatAxioms.ltb_spec, div_spec, Prim2SF_zero.
  remember (Prim2SF 1) as one eqn:H1. vm_compute in H1. subst one.
  unfold SF64div, SFdiv, SFleb.
  destruct (Prim2SF s) as [sg | sg | | sg m e];
    try destruct sg; simpl; intros H;
    try discriminate H; try reflexivity.
  match goal with
  | |- context [SFdiv_core_binary ?p ?x ?m1 ?e1 ?m2 ?e2] =>
      destruct (SFdiv_core_binary p x m1 e1 m2 e2) as [[mz ez] lz]
  end.
  apply rounded_not_negative.
Qed.

(** X16: the factor of the [setpts] node of a request that passes
    validation is never negative: the chain is built, and the factor
    [1 / speed] is not below zero. *)
Theorem speed_factor_is_not_negative (a : Args) :
  valid a ->
  exists f,
    final_video a
    = ret (Filter [joined_video a] "setpts" [AFmt f "*PTS"] []) /\
    Py.lt f 0 = false.
Proof.
  intros Hv. exists (1 / speed a)%float.
  split; [apply final_video_valid, Hv |].
  apply valid_inv in Hv. destruct Hv as (_ & _ & Hs & _).
  apply one_over_positive_not_negative. exact Hs.
Qed.

Lemma speed_factor_is_not_negative_witness :
  valid smooth_fast_request /\
  exists f,
    final_video smooth_fast_request
    = ret (Filter [joined_video smooth_fast_request] "setpts"
                  [AFmt f "*PTS"] []) /\
    Py.lt f 0 = false.
Proof.
  assert (Hv : valid smooth_fast_request) by reflexivity.
  split; [exact Hv |].
  exact (speed_factor_is_not_negative smooth_fast_request Hv).
Defined.

(** ** The claims on the join, the speed step and the probe, restated *)

(** What the ordered checks of the specification accept. *)
Lemma spec_validate_inv (a : Args) :
  spec_validate a = Ok tt -> requirements a.
Proof.
  unfold spec_validate, requirements.
  destruct (Py.ge (start_time a) 0); [| discriminate].
  destruct (Py.gt (duration a) 0); [| discriminate].
  destruct (Py.gt (speed a) 0); [| discriminate].
  destruct (Py.ge (fade_duration a) 0); [| discriminate].
  destruct (Py.lt (fade_duration a) (duration a)); [| discriminate].
  destruct (0 <=? crf a)%Z eqn:E0; [| discriminate].
  destruct (crf a <=? 51)%Z eqn:E1; [| discriminate].
  intros _. apply Z.leb_le in E0, E1. repeat split; assumption.
Qed.

(** Under the validation of the specification the join is decided by
    [fade_duration] alone, for every request: the departure of C1 comes
    from the tests of the code, not from the join. *)
Lemma join_under_spec_validate (a : Args) :
  spec_validate a = Ok tt ->
  ((fade_duration a =? 0)%float = true ->
   joined_video a = Concat [forward_video a; reverse_video a] []) /\
  (Py.gt (fade_duration a) 0 = true ->
   joined_video a
   = Filter [forward_video a; reverse_video a] "xfade" []
            [ ("transition", AStr "fade");
              ("duration", AFloat (fade_duration a));
              ("offset", AFloat (duration a - fade_duration a)%float) ]).
Proof.
  intros H. apply spec_validate_inv in H.
  destruct H as (_ & _ & _ & _ & Hlt & _). split.
  - intros Hz. unfold joined_video, Py.gt.
    rewrite (eq_zero_not_gt _ Hz). reflexivity.
  - intros Hpos. unfold joined_video. rewrite Hpos.
    unfold Py.lt in Hlt. unfold Py.gt at 1. rewrite Hlt. reflexivity.
Qed.

(** C5: for every request that passes validation the video chain is
    built and ends in the [setpts] node with factor [1 / speed].  The
    single input of that node is the join, and the join is the [Concat]
    or the [xfade] node over the pair of the forward branch (the video
    of the input) and the reversed branch (its [reverse]): the speed
    change sits on the joined pair.  No [setpts] occurs in the join or
    in either branch.  A speed of [2.0] gives the factor [0.5].  In
    every plan handed to the engine that node is the first stream. *)
Theorem setpts_is_last_video_step (a : Args) :
  valid a ->
  final_video a
  = ret (Filter [joined_video a] "setpts"
                [AFmt (1 / speed a)%float "*PTS"] []) /\
  (joined_video a
   = Concat [Select (input_stream a) "v";
             Filter [Select (input_stream a) "v"] "reverse" [] []] [] \/
   joined_video a
   = Filter [Select (input_stream a) "v";
             Filter [Select (input_stream a) "v"] "reverse" [] []]
            "xfade" []
            [ ("transition", AStr "fade");
              ("duration", AFloat (fade_duration a));
              ("offset", AFloat (duration a - fade_duration a)%float) ]) /\
  count_filter "setpts" (joined_video a) = 0 /\
  count_filter "setpts" (forward_video a) = 0 /\
  count_filter "setpts" (reverse_video a) = 0 /\
  count_filter "reverse" (forward_video a) = 0 /\
  count_filter "reverse" (reverse_video a) = 1 /\
  (speed a = 2%float ->
   final_video a
   = ret (Filter [joined_video a] "setpts" [AFmt 0.5 "*PTS"] [])) /\
  (forall env outs kw,
     plan_of (fst (create_boomerang env a)) = Some (outs, kw) ->
     exists rest,
       outs = Filter [joined_video a] "setpts"
                     [AFmt (1 / speed a)%float "*PTS"] [] :: rest).
Proof.
  intros Hv. split; [apply final_video_valid, Hv |].
  split.
  { unfold joined_video.
    destruct (Py.gt (fade_duration a) 0
              && Py.gt (duration a) (fade_duration a));
      [right | left]; reflexivity. }
  split; [apply count_setpts_joined |].
  repeat split.
  - intros E. rewrite (final_video_valid a Hv), E. reflexivity.
  - intros env outs kw H.
    destruct (plan_inv env a outs kw H) as (_ & c & _ & -> & _).
    eauto.
Qed.

Lemma setpts_is_last_video_step_witness :
  valid smooth_fast_request /\
  final_video smooth_fast_request
  = ret (Filter [joined_video smooth_fast_request] "setpts"
                [AFmt 0.5 "*PTS"] []).
Proof.
  assert (Hv : valid smooth_fast_request) by reflexivity.
  split; [exact Hv |].
  destruct (setpts_is_last_video_step smooth_fast_request Hv)
    as (_ & _ & _ & _ & _ & _ & _ & H & _).
  apply H. reflexivity.
Defined.








Lemma probe_runs_valid (env : Env) (a : Args) :
  valid a ->
  probe_runs (fst (create_boomerang env a))
  = probe_runs (fst (vcodec env a)).
Proof.
  intros Hv. rewrite (create_boomerang_valid env a Hv).
  destruct (audio_processing a _ (kwargs a)) as [outs kw].
  destruct (vcodec env a) as [t [c | e]]; cbn [fst];
    [rewrite probe_runs_app; simpl; lia | reflexivity].
Qed.

(** X6: [nvidia-smi] is run at most once in a call, a failed probe is
    not retried, and it is run only for a request that passes
    validation, with [use_gpu] set, on Windows or Linux, after the output
    directory step went through: a rejected request is never probed. *)
Theorem probe_runs_only_when_needed (h : Host) (a : Args) :
  probe_runs (run_events (fst (create_boomerang_io h a))) <= 1 /\
  (probe_runs (run_events (fst (create_boomerang_io h a))) = 1 ->
   valid a /\ use_gpu a = true /\
   (system (env h) = "Windows" \/ system (env h) = "Linux") /\
   forall e, snd (output_directory h a) <> Raise e).
Proof.
  destruct (input_validation_cases a) as [Hv | [msg Hm]].
  - rewrite (create_boomerang_io_valid h a Hv).
    assert (Hp : probe_runs (fst (create_boomerang (env h) a)) <= 1 /\
                 (probe_runs (fst (create_boomerang (env h) a)) = 1 ->
                  use_gpu a = true /\
                  (system (env h) = "Windows" \/
                   system (env h) = "Linux"))).
    { rewrite (probe_runs_valid (env h) a Hv), vcodec_probe_trace,
        <- probing_system.
      destruct (use_gpu a);
        destruct (String.eqb (system (env h)) "Windows"
                  || String.eqb (system (env h)) "Linux"); simpl;
        (split; [lia |]); intros H; try discriminate H; auto. }
    destruct Hp as [Hle Hone].
    destruct (output_directory_cases h a) as [E | (E & _)].
    + rewrite E. cbn [fst snd app]. rewrite run_events_map_Run.
      split; [exact Hle |]. intros H1.
      destruct (Hone H1) as [Hg Hs].
      repeat split; auto. discriminate.
    + destruct (output_directory h a) as [d [u | e]];
        cbn [fst snd] in *; subst d; cbn [fst app run_events].
      * rewrite run_events_map_Run.
        split; [exact Hle |]. intros H1.
        destruct (Hone H1) as [Hg Hs].
        repeat split; auto. discriminate.
      * simpl. split; [lia | discriminate].
  - unfold create_boomerang_io. rewrite Hm. simpl.
    split; [lia | discriminate].
Qed.
